(** * The OTP relay server ([src/websocket_server.py])

    A shallow embedding of [ConnectionManager] and of the HTTP and
    WebSocket handlers built on it, followed by the properties of the
    relay that the specification states.

    The three dictionaries of the manager are finite maps.  Every
    [await] on a websocket is an action of a small state-and-exception
    monad: the state pairs the manager with the network (which frames
    went out on which socket, and on which sockets a call raises), and a
    Python exception is a [Raise] result that keeps the state reached so
    far.  Each handler is run to completion on the state, which is how
    the server looks at the quiescent points of its single-threaded event
    loop. *)

From stdpp Require Import gmap strings list fin_maps.
From Stdlib Require Import ZArith.

Open Scope string_scope.
Open Scope list_scope.

(** ** Data *)

(** [time.time()] and [datetime.now().isoformat()]: an opaque instant. *)
Definition Timestamp := Z.

(** A [WebSocket] object, by identity. *)
Definition WebSocket := nat.

(** The exceptions that the handlers can meet. *)
Inductive Exn :=
  | WebSocketDisconnect
  | TimeoutError
  | JSONDecodeError
  | AttributeError
  | KeyError
  | RuntimeError.

#[global] Instance Exn_eq_dec : EqDecision Exn.
Proof. solve_decision. Defined.

(** The JSON dictionaries the server sends, one constructor per shape. *)
Inductive Frame :=
  | Otp (otp email sender domain : string) (timestamp : Timestamp)
  | NewEmail (email : string) (timestamp : Timestamp)
  | Ping
  | Pong
  | UserStatus (connected : bool) (email : option string) (timestamp : Timestamp)
  | ServerStatus (connected_users pending_otps : nat) (timestamp : Timestamp).

#[local] Set Warnings "-register-all".

(** A decoded JSON document, as [json.loads] returns it. *)
Inductive Json :=
  | JNull
  | JBool (b : bool)
  | JNumber (literal : string)
  | JString (s : string)
  | JArray (items : list Json)
  | JObject (members : list (string * Json)).

(** The text of an inbound frame, by what [json.loads] makes of it. *)
Inductive Payload :=
  | NotJson (raw : string)
  | Document (v : Json).

(** [class OTPData(BaseModel)] *)
Record OTPData := {
  otp_user_id : string;
  otp_otp : string;
  otp_email : string;
  otp_sender : string;
  otp_domain : string;
}.

(** [class EmailData(BaseModel)] *)
Record EmailData := {
  email_user_id : string;
  email_email : string;
}.

(** The bodies of the HTTP responses. *)
Inductive Response :=
  | OtpResponse (status user_id : string)
  | EmailResponse (status email : string).

Record UserStatusResponse := {
  rs_connected : bool;
  rs_email : option string;
  rs_has_pending : bool;
}.

(** [class ConnectionManager] *)
Record ConnectionManager := {
  active_connections : gmap string WebSocket;
  pending_otps : gmap string Frame;
  user_emails : gmap string string;
}.

(** What lies outside the process: on which sockets [accept] and
    [send_json] raise (and what), the frames that went out so far, oldest
    first, and the clock. *)
Record Network := {
  accept_fault : gmap WebSocket Exn;
  send_fault : gmap WebSocket Exn;
  wire : list (WebSocket * Frame);
  clock : Timestamp;
}.

Record Server := {
  manager : ConnectionManager;
  network : Network;
}.

Definition set_active (f : gmap string WebSocket → gmap string WebSocket)
    (m : ConnectionManager) : ConnectionManager :=
  {| active_connections := f (active_connections m);
     pending_otps := pending_otps m;
     user_emails := user_emails m |}.

Definition set_pending (f : gmap string Frame → gmap string Frame)
    (m : ConnectionManager) : ConnectionManager :=
  {| active_connections := active_connections m;
     pending_otps := f (pending_otps m);
     user_emails := user_emails m |}.

Definition set_emails (f : gmap string string → gmap string string)
    (m : ConnectionManager) : ConnectionManager :=
  {| active_connections := active_connections m;
     pending_otps := pending_otps m;
     user_emails := f (user_emails m) |}.

Definition with_manager (f : ConnectionManager → ConnectionManager)
    (s : Server) : Server :=
  {| manager := f (manager s); network := network s |}.

Definition put_on_wire (ws : WebSocket) (data : Frame) (s : Server) : Server :=
  {| manager := manager s;
     network := {| accept_fault := accept_fault (network s);
                   send_fault := send_fault (network s);
                   wire := wire (network s) ++ [(ws, data)];
                   clock := clock (network s) |} |}.

(** The frames that went out on one socket. *)
Definition received (ws : WebSocket) (s : Server) : list Frame :=
  (filter (λ p, p.1 = ws) (wire (network s))).*2.

(** [manager = ConnectionManager()] at start-up, on a quiet network. *)
Definition fresh_manager : ConnectionManager :=
  {| active_connections := ∅; pending_otps := ∅; user_emails := ∅ |}.

Definition quiet_network : Network :=
  {| accept_fault := ∅; send_fault := ∅; wire := []; clock := 0%Z |}.

Definition startup : Server :=
  {| manager := fresh_manager; network := quiet_network |}.

(** ** The monad of handlers *)

Inductive Result (A : Type) :=
  | Return (a : A)
  | Raise (e : Exn).
Arguments Return {A} a.
Arguments Raise {A} e.

Definition Handler (A : Type) : Type := Server → Result A * Server.

Definition ret {A} (a : A) : Handler A := λ s, (Return a, s).

Definition raise {A} (e : Exn) : Handler A := λ s, (Raise e, s).

Definition bind {A B} (m : Handler A) (k : A → Handler B) : Handler B :=
  λ s, match m s with
       | (Return a, s') => k a s'
       | (Raise e, s') => (Raise e, s')
       end.

(** [try: m  except <those e with h e = Some k>: k]; an exception that no
    clause matches goes on. *)
Definition try_except {A} (m : Handler A) (h : Exn → option (Handler A)) : Handler A :=
  λ s, match m s with
       | (Return a, s') => (Return a, s')
       | (Raise e, s') =>
           match h e with
           | Some k => k s'
           | None => (Raise e, s')
           end
       end.

Definition get : Handler Server := λ s, (Return s, s).

Definition modify (f : Server → Server) : Handler unit := λ s, (Return tt, f s).

Notation "x <- m ;; k" := (bind m (λ x, k))
  (at level 100, m at next level, right associativity).
Notation "m >> k" := (bind m (λ _, k))
  (at level 100, right associativity).

Definition exec {A} (m : Handler A) (s : Server) : Server := (m s).2.
Definition eval {A} (m : Handler A) (s : Server) : Result A := (m s).1.

(** [for x in l: body x] *)
Fixpoint for_each {A} (l : list A) (body : A → Handler unit) : Handler unit :=
  match l with
  | [] => ret tt
  | x :: l' => body x >> for_each l' body
  end.

(** ** The websocket, seen from the server *)

(** [await websocket.accept()] *)
Definition accept (ws : WebSocket) : Handler unit :=
  s <- get ;;
  match accept_fault (network s) !! ws with
  | Some e => raise e
  | None => ret tt
  end.

(** [await websocket.send_json(data)] *)
Definition send_json (ws : WebSocket) (data : Frame) : Handler unit :=
  s <- get ;;
  match send_fault (network s) !! ws with
  | Some e => raise e
  | None => modify (put_on_wire ws data)
  end.

(** [time.time()] *)
Definition time_time : Handler Timestamp := s <- get ;; ret (clock (network s)).

(** ** [ConnectionManager] *)

(** [def disconnect(self, user_id)] *)
Definition disconnect (user_id : string) (m : ConnectionManager) : ConnectionManager :=
  match active_connections m !! user_id with
  | Some _ => set_active (delete user_id) m
  | None => m
  end.

(** [async def send_otp(self, user_id, data)] *)
Definition send_otp (user_id : string) (data : Frame) : Handler bool :=
  s <- get ;;
  match active_connections (manager s) !! user_id with
  | Some websocket =>
      try_except
        (send_json websocket data >> ret true)
        (λ _, Some (modify (with_manager (disconnect user_id)) >> ret false))
  | None => ret false
  end.

(** [self.pending_otps.pop(user_id)] *)
Definition pop_pending (user_id : string) : Handler Frame :=
  s <- get ;;
  match pending_otps (manager s) !! user_id with
  | Some data => modify (with_manager (set_pending (delete user_id))) >> ret data
  | None => raise KeyError
  end.

(** [async def connect(self, websocket, user_id)] *)
Definition connect (websocket : WebSocket) (user_id : string) : Handler unit :=
  accept websocket >>
  modify (with_manager (set_active <[user_id := websocket]>)) >>
  s <- get ;;
  match pending_otps (manager s) !! user_id with
  | Some _ =>
      data <- pop_pending user_id ;;
      send_otp user_id data >> ret tt
  | None => ret tt
  end.

(** The body of the [for] of [broadcast_status]: a [try] around the send,
    with a bare [except] that unregisters the user. *)
Definition status_round (status : Frame) : string * WebSocket → Handler unit :=
  λ '(user_id, websocket),
    try_except (send_json websocket status)
      (λ _, Some (modify (with_manager (disconnect user_id)))).

(** [async def broadcast_status(self)]; the [for] runs over a copy of the
    items taken before the first send.  The rounds come in the order in
    which the map lists its entries, where Python has insertion order:
    a round touches its own user and socket only. *)
Definition broadcast_status : Handler unit :=
  s <- get ;;
  now <- time_time ;;
  let status :=
    ServerStatus (size (active_connections (manager s)))
                 (size (pending_otps (manager s))) now in
  for_each (map_to_list (active_connections (manager s))) (status_round status).

(** ** The handlers *)

(** [dict.get(key)] on a decoded object: of two members with one name,
    [json.loads] keeps the later. *)
Fixpoint dict_get (key : string) (members : list (string * Json)) : option Json :=
  match members with
  | [] => None
  | (k, v) :: rest =>
      match dict_get key rest with
      | Some v' => Some v'
      | None => if decide (k = key) then Some v else None
      end
  end.

(** [json.loads(data)] *)
Definition json_loads (data : Payload) : Handler Json :=
  match data with
  | NotJson _ => raise JSONDecodeError
  | Document v => ret v
  end.

(** [message.get("type")]: only a dictionary has [get]. *)
Definition message_get_type (message : Json) : Handler (option Json) :=
  match message with
  | JObject members => ret (dict_get "type" members)
  | _ => raise AttributeError
  end.

(** [x == "ping"] for the value [x] that [get] returned. *)
Definition is_str (x : option Json) (s : string) : bool :=
  match x with
  | Some (JString s') => bool_decide (s' = s)
  | _ => false
  end.

(** What the next [websocket.receive_text()] will do: complete after
    [delay] time units, with a text or with an exception, or never. *)
Inductive Inbound :=
  | Arrives (delay : Z) (what : Result Payload)
  | Silence.

(** The [timeout=30] of the read. *)
Definition read_timeout : Z := 30.

(** [await asyncio.wait_for(websocket.receive_text(), timeout=t)] *)
Definition wait_for_receive_text (inb : Inbound) (t : Z) : Handler Payload :=
  match inb with
  | Arrives delay what =>
      if bool_decide (delay < t)%Z then
        match what with
        | Return data => ret data
        | Raise e => raise e
        end
      else raise TimeoutError
  | Silence => raise TimeoutError
  end.

(** The body of the [while True:] of [websocket_endpoint]: the inner
    [try] with its [except asyncio.TimeoutError]. *)
Definition endpoint_iteration (websocket : WebSocket) (user_id : string)
    (inb : Inbound) : Handler unit :=
  try_except
    (data <- wait_for_receive_text inb read_timeout ;;
     message <- json_loads data ;;
     ty <- message_get_type message ;;
     if is_str ty "ping" then send_json websocket Pong
     else
       ty' <- message_get_type message ;;
       if is_str ty' "status" then
         s <- get ;;
         now <- time_time ;;
         send_json websocket
           (UserStatus true (user_emails (manager s) !! user_id) now)
       else ret tt)
    (λ e, match e with
          | TimeoutError => Some (send_json websocket Ping)
          | _ => None
          end).

(** Whether the [while True:] goes round again. *)
Inductive Loop := Running | Stopped.

(** One turn of the loop under the outer [try]: both [except] clauses
    unregister the user and leave the function. *)
Definition endpoint_turn (websocket : WebSocket) (user_id : string)
    (inb : Inbound) : Handler Loop :=
  try_except
    (endpoint_iteration websocket user_id inb >> ret Running)
    (λ _, Some (modify (with_manager (disconnect user_id)) >> ret Stopped)).

(** The loop, over the reads that the connection will see. *)
Fixpoint endpoint_loop (websocket : WebSocket) (user_id : string)
    (inbs : list Inbound) : Handler Loop :=
  match inbs with
  | [] => ret Running
  | inb :: rest =>
      st <- endpoint_turn websocket user_id inb ;;
      match st with
      | Running => endpoint_loop websocket user_id rest
      | Stopped => ret Stopped
      end
  end.

(** [async def websocket_endpoint(websocket, user_id)]; [connect] is
    outside the [try]. *)
Definition websocket_endpoint (websocket : WebSocket) (user_id : string)
    (inbs : list Inbound) : Handler Loop :=
  connect websocket user_id >>
  endpoint_loop websocket user_id inbs.

(** The [otp_info] of [receive_otp]. *)
Definition otp_info (data : OTPData) (now : Timestamp) : Frame :=
  Otp (otp_otp data) (otp_email data) (otp_sender data) (otp_domain data) now.

(** [async def receive_otp(data: OTPData)] *)
Definition receive_otp (data : OTPData) : Handler Response :=
  now <- time_time ;;
  let info := otp_info data now in
  sent <- send_otp (otp_user_id data) info ;;
  if sent : bool then ret (OtpResponse "delivered" (otp_user_id data))
  else
    modify (with_manager (set_pending <[otp_user_id data := info]>)) >>
    ret (OtpResponse "pending" (otp_user_id data)).

(** The [email_info] of [register_email]. *)
Definition email_info (data : EmailData) (now : Timestamp) : Frame :=
  NewEmail (email_email data) now.

(** [async def register_email(data: EmailData)] *)
Definition register_email (data : EmailData) : Handler Response :=
  modify (with_manager (set_emails <[email_user_id data := email_email data]>)) >>
  now <- time_time ;;
  send_otp (email_user_id data) (email_info data now) >>
  ret (EmailResponse "registered" (email_email data)).

(** [async def user_status(user_id)] *)
Definition user_status (user_id : string) (s : Server) : UserStatusResponse :=
  {| rs_connected := bool_decide (is_Some (active_connections (manager s) !! user_id));
     rs_email := user_emails (manager s) !! user_id;
     rs_has_pending := bool_decide (is_Some (pending_otps (manager s) !! user_id)) |}.

(** What can happen to the server between two quiescent points: one of
    the handlers runs, or the world around it moves (sockets break or
    mend, time passes). *)
Inductive Operation :=
  | OpConnect (websocket : WebSocket) (user_id : string)
  | OpDisconnect (user_id : string)
  | OpReceiveOtp (data : OTPData)
  | OpRegisterEmail (data : EmailData)
  | OpBroadcastStatus
  | OpEndpointTurn (websocket : WebSocket) (user_id : string) (inb : Inbound)
  | OpWorld (accept_faults send_faults : gmap WebSocket Exn) (now : Timestamp).

Definition perform (op : Operation) (s : Server) : Server :=
  match op with
  | OpConnect websocket user_id => exec (connect websocket user_id) s
  | OpDisconnect user_id => with_manager (disconnect user_id) s
  | OpReceiveOtp data => exec (receive_otp data) s
  | OpRegisterEmail data => exec (register_email data) s
  | OpBroadcastStatus => exec broadcast_status s
  | OpEndpointTurn websocket user_id inb => exec (endpoint_turn websocket user_id inb) s
  | OpWorld accept_faults send_faults now =>
      {| manager := manager s;
         network := {| accept_fault := accept_faults; send_fault := send_faults;
                       wire := wire (network s); clock := now |} |}
  end.

(** The server after a history of operations, oldest first. *)
Definition after (history : list Operation) (s : Server) : Server :=
  foldl (λ s op, perform op s) s history.

(** No user is at once connected and owed a pending message. *)
Definition coherent (m : ConnectionManager) : Prop :=
  ∀ user_id, is_Some (active_connections m !! user_id) →
             pending_otps m !! user_id = None.

(** ** Properties named by the specification *)

(** A turn of the loop that ignores its frame: the loop goes on, nothing
    is sent and nothing is unregistered. *)
Definition ignores_frame (websocket : WebSocket) (user_id : string)
    (inb : Inbound) (s : Server) : Prop :=
  endpoint_turn websocket user_id inb s = (Return Running, s).

(** [register_email] leaving its message in the pending queue. *)
Definition queues_registration (data : EmailData) (s : Server) : Prop :=
  pending_otps (manager (exec (register_email data) s)) !! email_user_id data
  = Some (email_info data (clock (network s))).

(** A type other than the two that the loop answers. *)
Definition unrecognized (members : list (string * Json)) : Prop :=
  is_str (dict_get "type" members) "ping" = false ∧
  is_str (dict_get "type" members) "status" = false.

(** The registry after a broadcast: the users whose socket took the frame. *)
Definition survivors (s : Server) : gmap string WebSocket :=
  filter (λ p, send_fault (network s) !! p.2 = None)
         (active_connections (manager s)).

(** The [status] dictionary of [broadcast_status]. *)
Definition status_of (s : Server) : Frame :=
  ServerStatus (size (active_connections (manager s)))
               (size (pending_otps (manager s))) (clock (network s)).

(** One round of the [for] of [broadcast_status], as a function on states. *)
Definition take_status (status : Frame) (s : Server) (p : string * WebSocket) : Server :=
  match send_fault (network s) !! p.2 with
  | None => put_on_wire p.2 status s
  | Some _ => with_manager (disconnect p.1) s
  end.

(** What the rounds over [l] leave of a registry [a]. *)
Definition drop_failed (n : Network) (l : list (string * WebSocket))
    (a : gmap string WebSocket) : gmap string WebSocket :=
  foldl (λ a p, match send_fault n !! p.2 with
                | None => a
                | Some _ => delete p.1 a
                end) a l.

(** The frames that the rounds over [l] put on the wire. *)
Definition frames_to (n : Network) (status : Frame)
    (l : list (string * WebSocket)) : list (WebSocket * Frame) :=
  (λ p, (p.2, status)) <$> filter (λ p, send_fault n !! p.2 = None) l.

(** The frames of one broadcast. *)
Definition status_frames (s : Server) : list (WebSocket * Frame) :=
  frames_to (network s) (status_of s) (map_to_list (active_connections (manager s))).

(** A handler that leaves the three dictionaries as they are. *)
Definition keeps_manager {A} (m : Handler A) : Prop :=
  ∀ s, manager (exec m s) = manager s.

(** ** Sample runs *)

(** The network, from one handler to the next: a socket breaks. *)
Definition break_send (ws : WebSocket) (e : Exn) (s : Server) : Server :=
  {| manager := manager s;
     network := {| accept_fault := accept_fault (network s);
                   send_fault := <[ws := e]> (send_fault (network s));
                   wire := wire (network s);
                   clock := clock (network s) |} |}.

Definition alice_otp : OTPData :=
  {| otp_user_id := "alice"; otp_otp := "123456"; otp_email := "alice@tmp.io";
     otp_sender := "Acme"; otp_domain := "acme.com" |}.

Definition alice_otp_again : OTPData :=
  {| otp_user_id := "alice"; otp_otp := "654321"; otp_email := "alice@tmp.io";
     otp_sender := "Acme"; otp_domain := "acme.com" |}.

Definition bob_mail : EmailData :=
  {| email_user_id := "bob"; email_email := "b@x.com" |}.

Definition alice_online : Server := exec (connect 1 "alice") startup.

Definition alice_owed : Server := exec (receive_otp alice_otp) startup.

(** Three users on three sockets; the second socket no longer takes frames. *)
Definition three_clients : Server :=
  break_send 2 RuntimeError
    (exec (connect 1 "alice" >> connect 2 "bob" >> connect 3 "carol") startup).

(** ** The read-only endpoints and further vocabulary *)

(** The body of the answer of [GET /]. *)
Record RootResponse := {
  root_status : string;
  root_service : string;
  root_connected_users : nat;
  root_pending_otps : nat;
}.

(** [async def root()] *)
Definition root (s : Server) : RootResponse :=
  {| root_status := "running";
     root_service := "TempMail OTP Auto-Fill Server";
     root_connected_users := size (active_connections (manager s));
     root_pending_otps := size (pending_otps (manager s)) |}.

(** The user that an operation is about; a broadcast and a change of the
    world are about nobody in particular. *)
Definition target (op : Operation) : option string :=
  match op with
  | OpConnect _ user_id => Some user_id
  | OpDisconnect user_id => Some user_id
  | OpReceiveOtp data => Some (otp_user_id data)
  | OpRegisterEmail data => Some (email_user_id data)
  | OpEndpointTurn _ user_id _ => Some user_id
  | OpBroadcastStatus => None
  | OpWorld _ _ _ => None
  end.

(** A frame with ["type": "otp"]. *)
Definition is_otp (f : Frame) : bool :=
  match f with
  | Otp _ _ _ _ _ => true
  | _ => false
  end.

(** Every message in the queue is a passcode. *)
Definition otp_only (m : ConnectionManager) : Prop :=
  ∀ user_id f, pending_otps m !! user_id = Some f → is_otp f = true.

(** Bob registered on a socket, with an address on file. *)
Definition bob_online : Server :=
  exec (register_email bob_mail >> connect 2 "bob") startup.

(** Alice registered on a socket that has since broken. *)
Definition alice_stale : Server := break_send 1 RuntimeError alice_online.

(** Alice owed a passcode, facing a socket whose handshake fails. *)
Definition handshake_broken : Server :=
  perform (OpWorld {[9 := RuntimeError]} ∅ 0%Z) alice_owed.

(** The frames [{"type": "ping"}] and [{"type": "status"}], read at once. *)
Definition ping_frame : Inbound :=
  Arrives 0 (Return (Document (JObject [("type", JString "ping")]))).

Definition status_frame : Inbound :=
  Arrives 0 (Return (Document (JObject [("type", JString "status")]))).

(** ** What each call does, case by case *)

Section Calls.
Implicit Types (s : Server) (m : ConnectionManager) (ws : WebSocket).
Implicit Types (user_id : string) (data : Frame).

Lemma disconnect_delete user_id m :
  disconnect user_id m = set_active (delete user_id) m.
Proof.
  unfold disconnect, set_active. destruct m as [a p e]; simpl.
  destruct (a !! user_id) eqn:E; [done|]. by rewrite delete_id.
Qed.

Lemma send_json_unfold ws data s :
  send_json ws data s =
  match send_fault (network s) !! ws with
  | Some e => (Raise e, s)
  | None => (Return tt, put_on_wire ws data s)
  end.
Proof. unfold send_json, bind, get. by destruct (_ !! ws). Qed.

Lemma send_otp_unfold user_id data s :
  send_otp user_id data s =
  match active_connections (manager s) !! user_id with
  | Some ws =>
      match send_fault (network s) !! ws with
      | None => (Return true, put_on_wire ws data s)
      | Some _ => (Return false, with_manager (disconnect user_id) s)
      end
  | None => (Return false, s)
  end.
Proof.
  unfold send_otp, bind, get. destruct (_ !! user_id) as [ws|]; [|done].
  unfold try_except. rewrite send_json_unfold. by destruct (_ !! ws).
Qed.

Lemma connect_unfold ws user_id s :
  connect ws user_id s =
  match accept_fault (network s) !! ws with
  | Some e => (Raise e, s)
  | None =>
      let s1 := with_manager (set_active <[user_id := ws]>) s in
      match pending_otps (manager s) !! user_id with
      | Some data =>
          let s2 := with_manager (set_pending (delete user_id)) s1 in
          match send_fault (network s) !! ws with
          | None => (Return tt, put_on_wire ws data s2)
          | Some _ => (Return tt, with_manager (disconnect user_id) s2)
          end
      | None => (Return tt, s1)
      end
  end.
Proof.
  unfold connect, accept, pop_pending, bind, get, modify, ret, raise.
  destruct (accept_fault _ !! ws); [done|]. cbn -[send_otp].
  destruct (pending_otps _ !! user_id) as [data|] eqn:E; [|done].
  cbn -[send_otp]. rewrite E. cbn -[send_otp].
  rewrite send_otp_unfold. simpl. rewrite lookup_insert_eq.
  by destruct (send_fault _ !! ws).
Qed.

Lemma receive_otp_unfold (d : OTPData) s :
  receive_otp d s =
  let info := otp_info d (clock (network s)) in
  let queue := with_manager (set_pending <[otp_user_id d := info]>) in
  match active_connections (manager s) !! otp_user_id d with
  | Some ws =>
      match send_fault (network s) !! ws with
      | None => (Return (OtpResponse "delivered" (otp_user_id d)),
                 put_on_wire ws info s)
      | Some _ => (Return (OtpResponse "pending" (otp_user_id d)),
                   queue (with_manager (disconnect (otp_user_id d)) s))
      end
  | None => (Return (OtpResponse "pending" (otp_user_id d)), queue s)
  end.
Proof.
  unfold receive_otp, time_time, bind, get, ret. simpl.
  rewrite send_otp_unfold.
  destruct (_ !! otp_user_id d) as [ws|]; [|done].
  by destruct (_ !! ws).
Qed.

Lemma register_email_unfold (d : EmailData) s :
  register_email d s =
  let s1 := with_manager (set_emails <[email_user_id d := email_email d]>) s in
  let info := email_info d (clock (network s)) in
  let reply := Return (EmailResponse "registered" (email_email d)) in
  match active_connections (manager s) !! email_user_id d with
  | Some ws =>
      match send_fault (network s) !! ws with
      | None => (reply, put_on_wire ws info s1)
      | Some _ => (reply, with_manager (disconnect (email_user_id d)) s1)
      end
  | None => (reply, s1)
  end.
Proof.
  unfold register_email, time_time, bind, get, ret, modify. simpl.
  rewrite send_otp_unfold. simpl.
  destruct (_ !! email_user_id d) as [ws|]; [|done].
  by destruct (_ !! ws).
Qed.
End Calls.

(** ** Facts about the bookkeeping *)

Lemma received_put_on_wire ws data s :
  received ws (put_on_wire ws data s) = received ws s ++ [data].
Proof.
  unfold received, put_on_wire; simpl.
  rewrite filter_app, fmap_app. f_equal.
  rewrite filter_cons_True by done. done.
Qed.

Lemma coherent_fresh : coherent fresh_manager.
Proof. intros user_id [ws Hws]. simpl in Hws. by rewrite lookup_empty in Hws. Qed.

Lemma coherent_disconnect user_id m :
  coherent m → coherent (disconnect user_id m).
Proof.
  intros Hm other [ws Hws]. rewrite disconnect_delete in *. simpl in *.
  apply Hm. destruct (decide (user_id = other)) as [->|Hne].
  - by rewrite lookup_delete_eq in Hws.
  - rewrite lookup_delete_ne in Hws by done. by exists ws.
Qed.

(** Queuing for a user that has just been unregistered, or never was
    registered. *)
Lemma coherent_queue user_id data m :
  active_connections m !! user_id = None →
  coherent m → coherent (set_pending <[user_id := data]> m).
Proof.
  intros Hoff Hm other [ws Hws]. simpl in *.
  destruct (decide (user_id = other)) as [->|Hne]; [congruence|].
  rewrite lookup_insert_ne by done. apply Hm. by exists ws.
Qed.

(** Registering a user whose pending entry is gone. *)
Lemma coherent_register ws user_id m :
  pending_otps m !! user_id = None →
  coherent m → coherent (set_active <[user_id := ws]> m).
Proof.
  intros Hnone Hm other [ws' Hws]. simpl in *.
  destruct (decide (user_id = other)) as [->|Hne]; [done|].
  rewrite lookup_insert_ne in Hws by done. apply Hm. by exists ws'.
Qed.

Lemma coherent_unqueue user_id m :
  coherent m → coherent (set_pending (delete user_id) m).
Proof.
  intros Hm other Hon. simpl in *.
  destruct (decide (user_id = other)) as [->|Hne].
  - apply lookup_delete_eq.
  - rewrite lookup_delete_ne by done. by apply Hm.
Qed.

Lemma coherent_set_emails f m : coherent m → coherent (set_emails f m).
Proof. intros Hm other Hon. by apply Hm. Qed.

(** ** The registry: [disconnect] *)

(** C7. [disconnect] is idempotent: it never raises, a user with no
    binding leaves the manager as it was, and a second call in a row finds
    the user unregistered and changes nothing more. *)
Theorem disconnect_idempotent (user_id : string) (s : Server) :
  let once := with_manager (disconnect user_id) in
  let call := modify once in
  eval call s = Return tt ∧
  eval (call >> call) s = Return tt ∧
  active_connections (manager (exec call s)) !! user_id = None ∧
  active_connections (manager (exec (call >> call) s)) !! user_id = None ∧
  exec (call >> call) s = exec call s ∧
  (active_connections (manager s) !! user_id = None → exec call s = s).
Proof.
  destruct s as [m n]. unfold eval, exec, bind, modify, with_manager.
  cbn [fst snd manager network]. rewrite !disconnect_delete.
  unfold set_active. cbn [active_connections pending_otps user_emails].
  rewrite delete_delete_eq, lookup_delete_eq.
  repeat split. intros Hoff. rewrite delete_id by done. by destruct m.
Qed.

Lemma disconnect_idempotent_witness :
  active_connections (manager startup) !! "alice" = None ∧
  exec (modify (with_manager (disconnect "alice"))) startup = startup ∧
  exec (modify (with_manager (disconnect "alice")) >>
        modify (with_manager (disconnect "alice"))) alice_online
  = exec (modify (with_manager (disconnect "alice"))) alice_online.
Proof.
  split; [reflexivity|]. split.
  - apply (disconnect_idempotent "alice" startup). reflexivity.
  - apply (disconnect_idempotent "alice" alice_online).
Defined.

(** C10. [disconnect] changes the registry and nothing else: the pending
    queue, the email bindings and the network are as before, so a buffered
    message and a registered email outlive the connection. *)
Theorem disconnect_frame (user_id : string) (s : Server) :
  let s' := with_manager (disconnect user_id) s in
  pending_otps (manager s') = pending_otps (manager s) ∧
  user_emails (manager s') = user_emails (manager s) ∧
  network s' = network s ∧
  rs_has_pending (user_status user_id s') = rs_has_pending (user_status user_id s) ∧
  rs_email (user_status user_id s') = rs_email (user_status user_id s).
Proof.
  destruct s as [m n]. simpl. unfold user_status. simpl.
  rewrite disconnect_delete. done.
Qed.

(** ** Delivery: [receive_otp] and [connect] *)

(** C1. A passcode for a connected user whose socket takes the frame is
    sent on that socket, exactly as built; the answer is [delivered]; the
    manager, and so the pending queue, is not touched, and the user has no
    pending entry afterwards. *)
Theorem receive_otp_delivered (d : OTPData) (s : Server) (ws : WebSocket) :
  active_connections (manager s) !! otp_user_id d = Some ws →
  send_fault (network s) !! ws = None →
  coherent (manager s) →
  let m := otp_info d (clock (network s)) in
  let s' := exec (receive_otp d) s in
  eval (receive_otp d) s = Return (OtpResponse "delivered" (otp_user_id d)) ∧
  wire (network s') = wire (network s) ++ [(ws, m)] ∧
  received ws s' = received ws s ++ [m] ∧
  manager s' = manager s ∧
  pending_otps (manager s') !! otp_user_id d = None.
Proof.
  intros Hon Hok Hco. unfold eval, exec.
  rewrite receive_otp_unfold. cbn zeta. rewrite Hon, Hok.
  cbn [fst snd]. rewrite received_put_on_wire.
  repeat split. apply Hco. by exists ws.
Qed.

Lemma receive_otp_delivered_witness :
  eval (receive_otp alice_otp) alice_online
  = Return (OtpResponse "delivered" "alice") ∧
  received 1 (exec (receive_otp alice_otp) alice_online)
  = [Otp "123456" "alice@tmp.io" "Acme" "acme.com" 0%Z] ∧
  pending_otps (manager (exec (receive_otp alice_otp) alice_online)) !! "alice"
  = None.
Proof.
  assert (Hco : coherent (manager alice_online)).
  { apply (coherent_register 1 "alice" fresh_manager);
      [reflexivity | apply coherent_fresh]. }
  destruct (receive_otp_delivered alice_otp alice_online 1
              eq_refl eq_refl Hco) as (Hr & _ & Hrecv & _ & Hp).
  split; [exact Hr|]. split; [exact Hrecv | exact Hp].
Defined.

(** C2. A passcode for a user that is not connected is answered
    [pending] and stored under the user's id in place of whatever was
    stored there: of two passcodes queued in a row only the second is in
    the queue, and only the second goes out when the user connects. *)
Theorem receive_otp_queued_overwrites (d1 d2 : OTPData) (s : Server) (ws : WebSocket) :
  otp_user_id d1 = otp_user_id d2 →
  active_connections (manager s) !! otp_user_id d2 = None →
  accept_fault (network s) !! ws = None →
  send_fault (network s) !! ws = None →
  let c := otp_user_id d2 in
  let m2 := otp_info d2 (clock (network s)) in
  let twice := receive_otp d1 >> receive_otp d2 in
  receive_otp d2 s
  = (Return (OtpResponse "pending" c), with_manager (set_pending <[c := m2]>) s) ∧
  eval twice s = Return (OtpResponse "pending" c) ∧
  pending_otps (manager (exec twice s)) = <[c := m2]> (pending_otps (manager s)) ∧
  pending_otps (manager (exec twice s)) !! c = Some m2 ∧
  wire (network (exec (twice >> connect ws c) s)) = wire (network s) ++ [(ws, m2)] ∧
  pending_otps (manager (exec (twice >> connect ws c) s)) !! c = None.
Proof.
  intros Hsame Hoff Hacc Hok. cbn zeta.
  assert (Hone : ∀ d, otp_user_id d = otp_user_id d2 →
            receive_otp d s
            = (Return (OtpResponse "pending" (otp_user_id d2)),
               with_manager
                 (set_pending <[otp_user_id d2 := otp_info d (clock (network s))]>) s)).
  { intros d Hd. rewrite receive_otp_unfold. cbn zeta. by rewrite Hd, Hoff. }
  split; [by apply Hone|].
  unfold eval, exec, bind. rewrite (Hone d1 Hsame).
  rewrite receive_otp_unfold. cbn zeta. cbn [manager network with_manager set_pending active_connections].
  rewrite Hoff. cbn [fst snd manager network with_manager set_pending pending_otps].
  rewrite insert_insert_eq, lookup_insert_eq. repeat split.
  all: rewrite connect_unfold.
  all: cbn [manager network with_manager set_pending pending_otps].
  all: rewrite Hacc, lookup_insert_eq; cbn zeta.
  all: cbn [manager network with_manager set_pending set_active pending_otps].
  all: rewrite Hok; simpl; by rewrite ?lookup_delete_eq.
Qed.

Lemma receive_otp_queued_overwrites_witness :
  eval (receive_otp alice_otp >> receive_otp alice_otp_again) startup
  = Return (OtpResponse "pending" "alice") ∧
  pending_otps (manager (exec (receive_otp alice_otp >> receive_otp alice_otp_again)
                              startup)) !! "alice"
  = Some (Otp "654321" "alice@tmp.io" "Acme" "acme.com" 0%Z) ∧
  wire (network (exec ((receive_otp alice_otp >> receive_otp alice_otp_again)
                       >> connect 1 "alice") startup))
  = [(1, Otp "654321" "alice@tmp.io" "Acme" "acme.com" 0%Z)].
Proof.
  destruct (receive_otp_queued_overwrites alice_otp alice_otp_again startup 1
              eq_refl eq_refl eq_refl eq_refl) as (_ & Hr & _ & Hp & Hw & _).
  split; [exact Hr|]. split; [exact Hp | exact Hw].
Defined.

(** C3. Connecting a user that has a pending message takes the message
    out of the queue, whatever becomes of the one attempt to send it on
    the new socket: if the socket takes the frame the message goes out
    and the user is registered; if not, nothing goes out, the user is
    unregistered again and the message is not put back. *)
Theorem connect_flushes_pending (ws : WebSocket) (user_id : string)
    (data : Frame) (s : Server) :
  pending_otps (manager s) !! user_id = Some data →
  accept_fault (network s) !! ws = None →
  let s' := exec (connect ws user_id) s in
  eval (connect ws user_id) s = Return tt ∧
  pending_otps (manager s') = delete user_id (pending_otps (manager s)) ∧
  pending_otps (manager s') !! user_id = None ∧
  rs_has_pending (user_status user_id s') = false ∧
  (send_fault (network s) !! ws = None →
     wire (network s') = wire (network s) ++ [(ws, data)] ∧
     active_connections (manager s') !! user_id = Some ws) ∧
  (is_Some (send_fault (network s) !! ws) →
     wire (network s') = wire (network s) ∧
     active_connections (manager s') !! user_id = None).
Proof.
  intros Hpend Hacc. unfold eval, exec, user_status.
  rewrite connect_unfold, Hacc, Hpend. cbn zeta.
  destruct (send_fault (network s) !! ws) as [e|] eqn:Hs; cbn [fst snd].
  - unfold with_manager. cbn [manager network]. rewrite disconnect_delete.
    simpl. rewrite !lookup_delete_eq.
    repeat split; done.
  - simpl. rewrite lookup_delete_eq, lookup_insert_eq.
    repeat split; try done; exfalso; by eapply is_Some_None.
Qed.

Lemma connect_flushes_pending_witness :
  pending_otps (manager alice_owed) !! "alice"
  = Some (Otp "123456" "alice@tmp.io" "Acme" "acme.com" 0%Z) ∧
  wire (network (exec (connect 1 "alice") alice_owed))
  = [(1, Otp "123456" "alice@tmp.io" "Acme" "acme.com" 0%Z)] ∧
  pending_otps (manager (exec (connect 1 "alice") alice_owed)) !! "alice" = None ∧
  wire (network (exec (connect 1 "alice") (break_send 1 RuntimeError alice_owed)))
  = [] ∧
  pending_otps
    (manager (exec (connect 1 "alice") (break_send 1 RuntimeError alice_owed)))
    !! "alice" = None.
Proof.
  destruct (connect_flushes_pending 1 "alice" _ alice_owed eq_refl eq_refl)
    as (_ & _ & Hp & _ & Hok & _).
  destruct (connect_flushes_pending 1 "alice" _
              (break_send 1 RuntimeError alice_owed) eq_refl eq_refl)
    as (_ & _ & Hp' & _ & _ & Hbad).
  split; [reflexivity|]. split; [exact (proj1 (Hok eq_refl))|].
  split; [exact Hp|]. split; [|exact Hp'].
  exact (proj1 (Hbad (ex_intro _ RuntimeError eq_refl))).
Defined.

(** ** Email registration: [register_email] *)

(** C5, as the specification has it, fails for a user that is not
    connected: the notification is not stored in the pending queue. *)
Lemma register_email_not_queued :
  active_connections (manager startup) !! "bob" = None ∧
  ¬ queues_registration bob_mail startup.
Proof. split; [reflexivity|]. unfold queues_registration. by vm_compute. Qed.

(** C5, amended. [register_email] records the address, makes one attempt
    to send the notification through [send_otp], drops the outcome and
    answers [registered]; it never writes to the pending queue.  With the
    user connected on a socket that takes the frame the notification goes
    out; with the user not connected nothing goes out; with a socket that
    refuses the frame nothing goes out and the user is unregistered. *)
Theorem register_email_best_effort (d : EmailData) (s : Server) :
  let c := email_user_id d in
  let info := email_info d (clock (network s)) in
  let s' := exec (register_email d) s in
  eval (register_email d) s = Return (EmailResponse "registered" (email_email d)) ∧
  user_emails (manager s') = <[c := email_email d]> (user_emails (manager s)) ∧
  pending_otps (manager s') = pending_otps (manager s) ∧
  (∀ ws, active_connections (manager s) !! c = Some ws →
         send_fault (network s) !! ws = None →
         wire (network s') = wire (network s) ++ [(ws, info)] ∧
         active_connections (manager s') = active_connections (manager s)) ∧
  (active_connections (manager s) !! c = None →
         wire (network s') = wire (network s) ∧
         active_connections (manager s') = active_connections (manager s)) ∧
  (∀ ws, active_connections (manager s) !! c = Some ws →
         is_Some (send_fault (network s) !! ws) →
         wire (network s') = wire (network s) ∧
         active_connections (manager s') = delete c (active_connections (manager s))).
Proof.
  cbn zeta. unfold eval, exec. rewrite register_email_unfold. cbn zeta.
  destruct (active_connections (manager s) !! email_user_id d) as [ws|] eqn:Hon.
  - destruct (send_fault (network s) !! ws) as [e|] eqn:Hs.
    + unfold with_manager. cbn [manager network fst snd].
      rewrite disconnect_delete. simpl.
      split_and!; try done; intros ws' [= <-]; by rewrite Hs.
    + simpl. split_and!; try done; intros ws' [= <-]; rewrite Hs; [done|].
      intros Hsome. exfalso. by eapply is_Some_None.
  - simpl. split_and!; done.
Qed.

Lemma register_email_best_effort_witness :
  eval (register_email bob_mail) startup
  = Return (EmailResponse "registered" "b@x.com") ∧
  user_emails (manager (exec (register_email bob_mail) startup)) !! "bob"
  = Some "b@x.com" ∧
  pending_otps (manager (exec (register_email bob_mail) startup)) = ∅ ∧
  wire (network (exec (register_email bob_mail) startup)) = [].
Proof.
  destruct (register_email_best_effort bob_mail startup)
    as (Hr & He & Hp & _ & Hoff & _).
  split; [exact Hr|]. split; [by rewrite He|]. split; [exact Hp|].
  exact (proj1 (Hoff eq_refl)).
Defined.

(** ** The broadcast *)

Section Broadcast.
Variable status : Frame.

Lemma round_take_status p s :
  status_round status p s = (Return tt, take_status status s p).
Proof.
  destruct p as [user_id ws]. unfold status_round, take_status, try_except.
  rewrite send_json_unfold. simpl. by destruct (_ !! ws).
Qed.

Lemma for_each_round l s :
  for_each l (status_round status) s
  = (Return tt, foldl (take_status status) s l).
Proof.
  revert s. induction l as [|p l IH]; intros s; [done|].
  simpl. unfold bind. rewrite round_take_status. apply IH.
Qed.

(** A round leaves the faults, the clock, the queue and the emails alone. *)
Lemma take_status_frame p s :
  let s' := take_status status s p in
  accept_fault (network s') = accept_fault (network s) ∧
  send_fault (network s') = send_fault (network s) ∧
  clock (network s') = clock (network s) ∧
  pending_otps (manager s') = pending_otps (manager s) ∧
  user_emails (manager s') = user_emails (manager s).
Proof.
  unfold take_status. destruct (_ !! p.2); simpl; [|done].
  by rewrite disconnect_delete.
Qed.

Lemma foldl_take_status l s :
  let s' := foldl (take_status status) s l in
  accept_fault (network s') = accept_fault (network s) ∧
  send_fault (network s') = send_fault (network s) ∧
  clock (network s') = clock (network s) ∧
  pending_otps (manager s') = pending_otps (manager s) ∧
  user_emails (manager s') = user_emails (manager s) ∧
  wire (network s') = wire (network s) ++ frames_to (network s) status l ∧
  active_connections (manager s')
  = drop_failed (network s) l (active_connections (manager s)).
Proof.
  revert s. induction l as [|p l IH]; intros s.
  - simpl. unfold frames_to. simpl. by rewrite app_nil_r.
  - cbn [foldl]. cbn zeta.
    destruct (IH (take_status status s p)) as (Ha & Hs & Hc & Hp & He & Hw & Hact).
    destruct (take_status_frame p s) as (Ha' & Hs' & Hc' & Hp' & He').
    rewrite Ha, Hs, Hc, Hp, He, Hw, Hact. split_and!; try done.
    + unfold frames_to. rewrite Hs'. unfold take_status.
      destruct (send_fault (network s) !! p.2) eqn:Hf; simpl.
      * rewrite filter_cons_False by congruence. done.
      * rewrite filter_cons_True by done. simpl. by rewrite <- app_assoc.
    + unfold drop_failed. rewrite Hs'. cbn [foldl]. unfold take_status.
      destruct (send_fault (network s) !! p.2) eqn:Hf; simpl; [|done].
      by rewrite disconnect_delete.
Qed.
End Broadcast.

Section DropFailed.
Variable n : Network.
Implicit Types (l : list (string * WebSocket)) (a : gmap string WebSocket).

Lemma drop_failed_cons p l a :
  drop_failed n (p :: l) a
  = drop_failed n l (match send_fault n !! p.2 with
                     | None => a
                     | Some _ => delete p.1 a
                     end).
Proof. reflexivity. Qed.

Lemma drop_failed_absent l a c :
  a !! c = None → drop_failed n l a !! c = None.
Proof.
  revert a. induction l as [|p l IH]; intros a Ha; [done|].
  rewrite drop_failed_cons. apply IH.
  destruct (send_fault n !! p.2); [|done].
  apply lookup_delete_None. by right.
Qed.

Lemma drop_failed_hit l a c ws e :
  (c, ws) ∈ l → send_fault n !! ws = Some e → drop_failed n l a !! c = None.
Proof.
  revert a. induction l as [|p l IH]; intros a Hin Hf.
  - by apply elem_of_nil in Hin.
  - rewrite drop_failed_cons.
    apply elem_of_cons in Hin as [<-|Hin].
    + simpl. rewrite Hf. apply drop_failed_absent, lookup_delete_eq.
    + by apply IH.
Qed.

Lemma drop_failed_miss l a c :
  (∀ ws, (c, ws) ∈ l → send_fault n !! ws = None) →
  drop_failed n l a !! c = a !! c.
Proof.
  revert a. induction l as [|[c' ws'] l IH]; intros a Hok; [done|].
  rewrite drop_failed_cons.
  assert (Hrest : ∀ ws, (c, ws) ∈ l → send_fault n !! ws = None).
  { intros ws Hin. apply Hok. by right. }
  simpl. destruct (send_fault n !! ws') as [e|] eqn:Hf.
  - rewrite (IH _ Hrest). apply lookup_delete_ne. intros ->.
    assert (send_fault n !! ws' = None) by (apply Hok; by left). congruence.
  - by apply IH.
Qed.

Lemma drop_failed_all a :
  drop_failed n (map_to_list a) a = filter (λ p, send_fault n !! p.2 = None) a.
Proof.
  apply map_eq. intros c. symmetry.
  destruct (a !! c) as [ws|] eqn:Ha.
  - destruct (send_fault n !! ws) as [e|] eqn:Hf.
    + rewrite (drop_failed_hit _ _ c ws e) by (by rewrite ?elem_of_map_to_list).
      apply map_lookup_filter_None. right. intros ws' Hws'. simpl. congruence.
    + rewrite drop_failed_miss, Ha.
      * by apply map_lookup_filter_Some.
      * intros ws' Hin%elem_of_map_to_list. congruence.
  - rewrite drop_failed_absent by done.
    apply map_lookup_filter_None. by left.
Qed.
End DropFailed.

Lemma broadcast_status_unfold s :
  broadcast_status s
  = (Return tt,
     foldl (take_status (status_of s)) s (map_to_list (active_connections (manager s)))).
Proof.
  unfold broadcast_status, time_time, bind, get, ret. cbn beta iota.
  apply for_each_round.
Qed.

(** C6. A broadcast never raises. Every registered user whose socket
    takes the frame gets the status frame and stays registered; every
    registered user whose socket refuses it is unregistered, and nobody
    else is; the frames that go out are exactly one per registered socket
    that takes it, however many sockets refuse; the queue and the email
    bindings are as before. *)
Theorem broadcast_status_reaches_all (s : Server) :
  let s' := exec broadcast_status s in
  eval broadcast_status s = Return tt ∧
  active_connections (manager s') = survivors s ∧
  wire (network s') = wire (network s) ++ status_frames s ∧
  pending_otps (manager s') = pending_otps (manager s) ∧
  user_emails (manager s') = user_emails (manager s) ∧
  (∀ user_id ws,
     active_connections (manager s) !! user_id = Some ws →
     send_fault (network s) !! ws = None →
     active_connections (manager s') !! user_id = Some ws ∧
     (ws, status_of s) ∈ status_frames s ∧
     status_of s ∈ received ws s') ∧
  (∀ user_id ws,
     active_connections (manager s) !! user_id = Some ws →
     is_Some (send_fault (network s) !! ws) →
     active_connections (manager s') !! user_id = None) ∧
  (∀ user_id,
     active_connections (manager s) !! user_id = None →
     active_connections (manager s') !! user_id = None).
Proof.
  cbn zeta. unfold eval, exec. rewrite broadcast_status_unfold. cbn [fst snd].
  destruct (foldl_take_status (status_of s)
              (map_to_list (active_connections (manager s))) s)
    as (_ & _ & _ & Hp & He & Hw & Hact).
  rewrite drop_failed_all in Hact. fold (survivors s) in Hact.
  fold (status_frames s) in Hw.
  rewrite Hp, He, Hw, Hact.
  assert (Hin : ∀ user_id ws,
            active_connections (manager s) !! user_id = Some ws →
            send_fault (network s) !! ws = None →
            (ws, status_of s) ∈ status_frames s).
  { intros user_id ws Hon Hok. unfold status_frames, frames_to.
    apply (list_elem_of_fmap_2 (λ p : string * WebSocket, (p.2, status_of s))
             _ (user_id, ws)).
    apply list_elem_of_filter. split; [done|]. by apply elem_of_map_to_list. }
  split_and!; try done.
  - intros user_id ws Hon Hok. split_and!.
    + by apply map_lookup_filter_Some.
    + by eapply Hin.
    + unfold received. rewrite Hw.
      apply (list_elem_of_fmap_2 snd _ (ws, status_of s)).
      apply list_elem_of_filter. split; [done|].
      apply elem_of_app. right. by eapply Hin.
  - intros user_id ws Hon [e Hbad].
    apply map_lookup_filter_None. right. intros ws' Hws'. simpl. congruence.
  - intros user_id Hoff. apply map_lookup_filter_None. by left.
Qed.

Lemma broadcast_status_reaches_all_witness :
  let after := exec broadcast_status three_clients in
  let status := ServerStatus 3 0 0%Z in
  status_of three_clients = status ∧
  (active_connections (manager after) !! "alice" = Some 1 ∧
   status ∈ received 1 after) ∧
  (active_connections (manager after) !! "carol" = Some 3 ∧
   status ∈ received 3 after) ∧
  active_connections (manager after) !! "bob" = None ∧
  received 2 after = [].
Proof.
  cbn zeta.
  destruct (broadcast_status_reaches_all three_clients)
    as (_ & _ & _ & _ & _ & Hgood & Hbad & _).
  assert (Hst : status_of three_clients = ServerStatus 3 0 0%Z)
    by (vm_compute; reflexivity).
  rewrite <- Hst. split; [reflexivity|].
  destruct (Hgood "alice" 1) as (Ha & _ & Hra);
    [vm_compute; reflexivity | vm_compute; reflexivity |].
  destruct (Hgood "carol" 3) as (Hc & _ & Hrc);
    [vm_compute; reflexivity | vm_compute; reflexivity |].
  split; [exact (conj Ha Hra)|]. split; [exact (conj Hc Hrc)|].
  split; [|vm_compute; reflexivity].
  apply (Hbad "bob" 2); [vm_compute; reflexivity|].
  exists RuntimeError. vm_compute; reflexivity.
Defined.

(** ** Handlers that leave the manager alone *)

Lemma keeps_ret {A} (a : A) : keeps_manager (ret a).
Proof. by intros s. Qed.

Lemma keeps_raise {A} (e : Exn) : keeps_manager (@raise A e).
Proof. by intros s. Qed.

Lemma keeps_get : keeps_manager get.
Proof. by intros s. Qed.

Lemma keeps_bind {A B} (m : Handler A) (k : A → Handler B) :
  keeps_manager m → (∀ a, keeps_manager (k a)) → keeps_manager (bind m k).
Proof.
  intros Hm Hk s. specialize (Hm s). unfold exec, bind in *.
  destruct (m s) as [[a|e] s']; simpl in *; [|done].
  rewrite <- Hm. apply Hk.
Qed.

Lemma keeps_try_except {A} (m : Handler A) (h : Exn → option (Handler A)) :
  keeps_manager m → (∀ e k, h e = Some k → keeps_manager k) →
  keeps_manager (try_except m h).
Proof.
  intros Hm Hh s. specialize (Hm s). unfold exec, try_except in *.
  destruct (m s) as [[a|e] s']; simpl in *; [done|].
  destruct (h e) as [k|] eqn:Hk; [|done].
  rewrite <- Hm. by apply (Hh e k).
Qed.

Lemma keeps_send_json ws data : keeps_manager (send_json ws data).
Proof.
  intros s. unfold exec. rewrite send_json_unfold.
  by destruct (send_fault _ !! ws).
Qed.

(** ** The consumer loop *)

Section Endpoint.
Variables (websocket : WebSocket) (user_id : string).

Lemma endpoint_turn_unfold inb s :
  endpoint_turn websocket user_id inb s =
  match endpoint_iteration websocket user_id inb s with
  | (Return _, s') => (Return Running, s')
  | (Raise _, s') => (Return Stopped, with_manager (disconnect user_id) s')
  end.
Proof.
  unfold endpoint_turn, try_except, bind, ret, modify.
  by destruct (endpoint_iteration _ _ _ _) as [[[]|e] s'].
Qed.

(** The read timed out: the [except asyncio.TimeoutError] clause runs. *)
Lemma endpoint_iteration_timeout inb s :
  wait_for_receive_text inb read_timeout s = (Raise TimeoutError, s) →
  endpoint_iteration websocket user_id inb s = send_json websocket Ping s.
Proof.
  intros Hwait. unfold endpoint_iteration, try_except, bind.
  by rewrite Hwait.
Qed.

Lemma wait_for_late inb s :
  inb = Silence ∨ (∃ delay what, inb = Arrives delay what ∧ (read_timeout ≤ delay)%Z) →
  wait_for_receive_text inb read_timeout s = (Raise TimeoutError, s).
Proof.
  intros [->|(delay & what & -> & Hlate)]; [done|].
  unfold wait_for_receive_text. by rewrite bool_decide_eq_false_2 by lia.
Qed.

Lemma wait_for_in_time delay data s :
  (delay < read_timeout)%Z →
  wait_for_receive_text (Arrives delay (Return data)) read_timeout s
  = (Return data, s).
Proof.
  intros Hin. unfold wait_for_receive_text. by rewrite bool_decide_eq_true_2.
Qed.

(** A text that is read in time and is no JSON object: the exception
    passes the inner [except] clause. *)
Lemma endpoint_iteration_undecodable delay data s :
  (delay < read_timeout)%Z →
  (∀ members, data ≠ Document (JObject members)) →
  ∃ e, endpoint_iteration websocket user_id (Arrives delay (Return data)) s
       = (Raise e, s) ∧ e ≠ TimeoutError.
Proof.
  intros Hin Hno. unfold endpoint_iteration, try_except, bind.
  rewrite wait_for_in_time by done.
  destruct data as [raw|v].
  - exists JSONDecodeError. by split.
  - destruct v; try (exists AttributeError; by split).
    by destruct (Hno members).
Qed.

(** A turn with a JSON object whose type the loop does not answer. *)
Lemma endpoint_iteration_unrecognized delay members s :
  (delay < read_timeout)%Z →
  unrecognized members →
  endpoint_iteration websocket user_id
    (Arrives delay (Return (Document (JObject members)))) s
  = (Return tt, s).
Proof.
  intros Hin [Hping Hstatus]. unfold endpoint_iteration, try_except, bind.
  rewrite wait_for_in_time by done. simpl. by rewrite Hping, Hstatus.
Qed.

(** The iteration sends frames and does nothing else to the manager. *)
Lemma endpoint_iteration_keeps inb :
  keeps_manager (endpoint_iteration websocket user_id inb).
Proof.
  unfold endpoint_iteration. apply keeps_try_except.
  - apply keeps_bind.
    { unfold wait_for_receive_text.
      destruct inb as [delay [data|e]|]; repeat case_match;
        auto using keeps_ret, keeps_raise. }
    intros data. apply keeps_bind.
    { unfold json_loads. destruct data; auto using keeps_ret, keeps_raise. }
    intros message. apply keeps_bind.
    { unfold message_get_type.
      destruct message; auto using keeps_ret, keeps_raise. }
    intros ty. destruct (is_str ty "ping"); [apply keeps_send_json|].
    apply keeps_bind.
    { unfold message_get_type.
      destruct message; auto using keeps_ret, keeps_raise. }
    intros ty'. destruct (is_str ty' "status"); [|apply keeps_ret].
    apply keeps_bind; [apply keeps_get|]. intros s.
    apply keeps_bind; [apply keeps_bind; [apply keeps_get|]; intros; apply keeps_ret|].
    intros now. apply keeps_send_json.
  - intros e k Hk. destruct e; simplify_eq. apply keeps_send_json.
Qed.
End Endpoint.

(** C4, as the specification has it, fails for a text that is not JSON:
    [json.loads] raises inside the inner [try], whose only clause is for
    [asyncio.TimeoutError], so the outer [except Exception] runs; the
    loop ends and the user is unregistered. *)
Lemma malformed_frame_not_ignored :
  active_connections (manager alice_online) !! "alice" = Some 1 ∧
  ¬ ignores_frame 1 "alice" (Arrives 0 (Return (NotJson "{oops"))) alice_online ∧
  eval (endpoint_turn 1 "alice" (Arrives 0 (Return (NotJson "{oops")))) alice_online
  = Return Stopped ∧
  active_connections
    (manager (exec (endpoint_turn 1 "alice" (Arrives 0 (Return (NotJson "{oops"))))
                   alice_online)) !! "alice" = None.
Proof.
  split; [reflexivity|]. split; [|split; reflexivity].
  unfold ignores_frame. vm_compute. intros [=].
Qed.

(** C4, amended. Of the frames that are read in time, the loop ignores a
    JSON object whose [type] is neither [ping] nor [status] (or is
    missing): it goes on, sends nothing and unregisters nobody.  A text
    that is not JSON, or that decodes to something other than an object,
    is not answered either, but it ends the loop and unregisters the user. *)
Theorem endpoint_turn_malformed (websocket : WebSocket) (user_id : string)
    (delay : Z) (s : Server) :
  (delay < read_timeout)%Z →
  (∀ members, unrecognized members →
     ignores_frame websocket user_id
       (Arrives delay (Return (Document (JObject members)))) s) ∧
  (∀ data, (∀ members, data ≠ Document (JObject members)) →
     let turn := endpoint_turn websocket user_id (Arrives delay (Return data)) in
     turn s = (Return Stopped, with_manager (disconnect user_id) s) ∧
     wire (network (exec turn s)) = wire (network s) ∧
     active_connections (manager (exec turn s)) !! user_id = None).
Proof.
  intros Hin. split.
  - intros members Hun. unfold ignores_frame.
    by rewrite endpoint_turn_unfold, endpoint_iteration_unrecognized.
  - intros data Hno. cbn zeta. unfold exec.
    destruct (endpoint_iteration_undecodable websocket user_id delay data s Hin Hno)
      as (e & He & _).
    rewrite endpoint_turn_unfold, He. cbn [fst snd with_manager manager network].
    rewrite disconnect_delete. simpl. by rewrite lookup_delete_eq.
Qed.

Lemma endpoint_turn_malformed_witness :
  ignores_frame 1 "alice"
    (Arrives 0 (Return (Document (JObject [("type", JString "hello")]))))
    alice_online ∧
  ignores_frame 1 "alice"
    (Arrives 0 (Return (Document (JObject [("action", JString "status")]))))
    alice_online ∧
  endpoint_turn 1 "alice" (Arrives 0 (Return (Document (JArray [])))) alice_online
  = (Return Stopped, with_manager (disconnect "alice") alice_online).
Proof.
  destruct (endpoint_turn_malformed 1 "alice" 0 alice_online eq_refl)
    as (Hobj & Hbad).
  split; [apply Hobj; by split|]. split; [apply Hobj; by split|].
  by apply (Hbad (Document (JArray []))).
Defined.

(** C8. When the read of a connected user's socket times out, because
    nothing arrives or because what arrives comes no sooner than the 30
    time units of the read, and the socket takes the frame, the server
    sends [Ping] on it; the loop goes on and the manager is as before, so
    the user stays registered. *)
Theorem endpoint_turn_timeout (websocket : WebSocket) (user_id : string)
    (inb : Inbound) (s : Server) :
  inb = Silence ∨
    (∃ delay what, inb = Arrives delay what ∧ (30 ≤ delay)%Z) →
  active_connections (manager s) !! user_id = Some websocket →
  send_fault (network s) !! websocket = None →
  let s' := exec (endpoint_turn websocket user_id inb) s in
  eval (endpoint_turn websocket user_id inb) s = Return Running ∧
  wire (network s') = wire (network s) ++ [(websocket, Ping)] ∧
  received websocket s' = received websocket s ++ [Ping] ∧
  manager s' = manager s ∧
  active_connections (manager s') !! user_id = Some websocket.
Proof.
  intros Hlate Hon Hok. cbn zeta. unfold eval, exec.
  rewrite endpoint_turn_unfold, endpoint_iteration_timeout
    by (by apply wait_for_late).
  rewrite send_json_unfold, Hok. cbn [fst snd].
  by rewrite received_put_on_wire.
Qed.

Lemma endpoint_turn_timeout_witness :
  eval (endpoint_turn 1 "alice" Silence) alice_online = Return Running ∧
  received 1 (exec (endpoint_turn 1 "alice" Silence) alice_online) = [Ping] ∧
  received 1 (exec (endpoint_turn 1 "alice"
                      (Arrives 31 (Return (Document (JObject [("type", JString "ping")])))))
                   alice_online) = [Ping].
Proof.
  destruct (endpoint_turn_timeout 1 "alice" Silence alice_online
              (or_introl eq_refl) eq_refl eq_refl) as (Hr & _ & Hrecv & _).
  split; [exact Hr|]. split; [exact Hrecv|].
  refine (proj1 (proj2 (proj2 (endpoint_turn_timeout 1 "alice" _ alice_online
                                 (or_intror _) eq_refl eq_refl)))).
  eexists _, _. split; [reflexivity|]. by vm_compute.
Defined.

(** ** The invariant of the manager *)

Lemma coherent_connect ws user_id m :
  coherent m →
  coherent (set_pending (delete user_id) (set_active <[user_id := ws]> m)).
Proof.
  intros Hm other [ws' Hws]. simpl in *.
  destruct (decide (user_id = other)) as [->|Hne].
  - apply lookup_delete_eq.
  - rewrite lookup_delete_ne by done. rewrite lookup_insert_ne in Hws by done.
    apply Hm. by exists ws'.
Qed.

Lemma coherent_perform op s :
  coherent (manager s) → coherent (manager (perform op s)).
Proof.
  intros Hco. destruct op as [ws c|c|d|d| |ws c inb|af sf now]; simpl.
  - unfold exec. rewrite connect_unfold.
    destruct (accept_fault _ !! ws); [done|]. cbn zeta.
    destruct (pending_otps _ !! c) as [data|] eqn:Hp.
    + destruct (send_fault _ !! ws); simpl.
      * by apply coherent_disconnect, coherent_connect.
      * by apply coherent_connect.
    + simpl. by apply coherent_register.
  - by apply coherent_disconnect.
  - unfold exec. rewrite receive_otp_unfold. cbn zeta.
    destruct (active_connections _ !! otp_user_id d) as [ws|] eqn:Hon.
    + destruct (send_fault _ !! ws); simpl; [|done].
      apply coherent_queue; [|by apply coherent_disconnect].
      rewrite disconnect_delete. apply lookup_delete_eq.
    + simpl. by apply coherent_queue.
  - unfold exec. rewrite register_email_unfold. cbn zeta.
    destruct (active_connections _ !! email_user_id d) as [ws|].
    + destruct (send_fault _ !! ws); simpl.
      * by apply coherent_disconnect, coherent_set_emails.
      * by apply coherent_set_emails.
    + simpl. by apply coherent_set_emails.
  - unfold exec. rewrite broadcast_status_unfold. cbn [snd].
    destruct (foldl_take_status (status_of s)
                (map_to_list (active_connections (manager s))) s)
      as (_ & _ & _ & Hp & _ & _ & Hact).
    rewrite drop_failed_all in Hact.
    intros other [ws Hws]. rewrite Hp. rewrite Hact in Hws.
    apply map_lookup_filter_Some in Hws as [Hws _]. apply Hco. by exists ws.
  - unfold exec. rewrite endpoint_turn_unfold.
    pose proof (endpoint_iteration_keeps ws c inb s) as Hkeep. unfold exec in Hkeep.
    destruct (endpoint_iteration ws c inb s) as [[[]|e] s']; simpl in *.
    + by rewrite Hkeep.
    + rewrite Hkeep. by apply coherent_disconnect.
  - done.
Qed.

(** C9. No user is ever both registered and owed a pending message: this
    holds at start-up, every operation that runs to its end keeps it, and
    so it holds after every history of operations. *)
Theorem coherent_invariant :
  coherent (manager startup) ∧
  (∀ op s, coherent (manager s) → coherent (manager (perform op s))) ∧
  (∀ history, coherent (manager (after history startup))) ∧
  (∀ history user_id,
     rs_connected (user_status user_id (after history startup)) = true →
     rs_has_pending (user_status user_id (after history startup)) = false).
Proof.
  assert (Hall : ∀ history s, coherent (manager s) →
                              coherent (manager (after history s))).
  { induction history as [|op history IH]; intros s Hs; [done|].
    apply IH. by apply coherent_perform. }
  split_and!.
  - apply coherent_fresh.
  - apply coherent_perform.
  - intros history. apply Hall, coherent_fresh.
  - intros history user_id Hon. unfold user_status in *. simpl in *.
    apply bool_decide_eq_true_1 in Hon.
    rewrite (Hall history startup coherent_fresh user_id Hon).
    apply bool_decide_eq_false_2, is_Some_None.
Qed.

Lemma coherent_invariant_witness :
  let history := [OpReceiveOtp alice_otp; OpRegisterEmail bob_mail;
                  OpConnect 1 "alice"; OpConnect 2 "bob";
                  OpWorld ∅ {[1 := RuntimeError]} 5%Z;
                  OpReceiveOtp alice_otp_again; OpBroadcastStatus] in
  rs_connected (user_status "bob" (after history startup)) = true ∧
  rs_has_pending (user_status "bob" (after history startup)) = false ∧
  coherent (manager (perform (OpConnect 1 "alice") alice_owed)).
Proof.
  cbn zeta. destruct coherent_invariant as (H0 & Hstep & _ & Hobs).
  split; [by vm_compute|]. split.
  - apply Hobs. by vm_compute.
  - apply Hstep. apply (Hstep (OpReceiveOtp alice_otp) startup H0).
Defined.


(** ** Further properties of delivery *)

(** [send_otp] never raises and never writes to the queue or to the email
    bindings.  It answers [True] exactly when the frame went out on the
    user's socket, and then the registry is as before; when it answers
    [False] nothing went out and the user is not registered afterwards,
    whether because there was no binding or because the failed send
    removed it. *)
Theorem send_otp_outcome (user_id : string) (data : Frame) (s : Server) :
  let s' := exec (send_otp user_id data) s in
  pending_otps (manager s') = pending_otps (manager s) ∧
  user_emails (manager s') = user_emails (manager s) ∧
  ((eval (send_otp user_id data) s = Return true ∧
    ∃ ws, active_connections (manager s) !! user_id = Some ws ∧
          s' = put_on_wire ws data s) ∨
   (eval (send_otp user_id data) s = Return false ∧
    wire (network s') = wire (network s) ∧
    active_connections (manager s') !! user_id = None)).
Proof.
  cbn zeta. unfold eval, exec. rewrite send_otp_unfold.
  destruct (active_connections (manager s) !! user_id) as [ws|] eqn:Hon.
  - destruct (send_fault (network s) !! ws) as [e|]; cbn [fst snd].
    + unfold with_manager. cbn [manager network]. rewrite disconnect_delete.
      simpl. split_and!; try done. right. by rewrite lookup_delete_eq.
    + split_and!; try done. left. split; [done|]. by exists ws.
  - split_and!; try done. by right.
Qed.

(** A passcode handed to [receive_otp] ends up in exactly one place, and
    the answer says which: [delivered] means it went out on the user's
    socket and the manager is as before; [pending] means nothing went out,
    the passcode is the user's entry in the queue and the user is not
    registered.  No exception reaches the caller. *)
Theorem receive_otp_exactly_once (d : OTPData) (s : Server) :
  let c := otp_user_id d in
  let m := otp_info d (clock (network s)) in
  let s' := exec (receive_otp d) s in
  (eval (receive_otp d) s = Return (OtpResponse "delivered" c) ∧
   (∃ ws, active_connections (manager s) !! c = Some ws ∧
          wire (network s') = wire (network s) ++ [(ws, m)]) ∧
   manager s' = manager s) ∨
  (eval (receive_otp d) s = Return (OtpResponse "pending" c) ∧
   wire (network s') = wire (network s) ∧
   pending_otps (manager s') = <[c := m]> (pending_otps (manager s)) ∧
   active_connections (manager s') !! c = None).
Proof.
  cbn zeta. unfold eval, exec. rewrite receive_otp_unfold. cbn zeta.
  destruct (active_connections (manager s) !! otp_user_id d) as [ws|] eqn:Hon.
  - destruct (send_fault (network s) !! ws) as [e|]; cbn [fst snd].
    + right. unfold with_manager. cbn [manager network].
      rewrite disconnect_delete. simpl. by rewrite lookup_delete_eq.
    + left. split_and!; try done. by exists ws.
  - right. by simpl.
Qed.

(** A send that fails is absorbed: for a user registered on a socket that
    refuses the frame, [receive_otp] answers [pending], unregisters the
    user and keeps the passcode, and the next [connect] of that user on a
    working socket sends just that passcode. *)
Theorem receive_otp_send_failure_recovers (d : OTPData) (s : Server)
    (stale fresh : WebSocket) (e : Exn) :
  active_connections (manager s) !! otp_user_id d = Some stale →
  send_fault (network s) !! stale = Some e →
  accept_fault (network s) !! fresh = None →
  send_fault (network s) !! fresh = None →
  let c := otp_user_id d in
  let m := otp_info d (clock (network s)) in
  let s1 := exec (receive_otp d) s in
  let s2 := exec (receive_otp d >> connect fresh c) s in
  eval (receive_otp d) s = Return (OtpResponse "pending" c) ∧
  wire (network s1) = wire (network s) ∧
  active_connections (manager s1) !! c = None ∧
  pending_otps (manager s1) !! c = Some m ∧
  wire (network s2) = wire (network s) ++ [(fresh, m)] ∧
  active_connections (manager s2) !! c = Some fresh ∧
  pending_otps (manager s2) !! c = None.
Proof.
  intros Hon Hbad Hacc Hok. cbn zeta.
  assert (H1 : receive_otp d s
               = (Return (OtpResponse "pending" (otp_user_id d)),
                  with_manager
                    (set_pending <[otp_user_id d := otp_info d (clock (network s))]>)
                    (with_manager (set_active (delete (otp_user_id d))) s))).
  { rewrite receive_otp_unfold. cbn zeta. rewrite Hon, Hbad.
    unfold with_manager at 2. by rewrite disconnect_delete. }
  unfold eval, exec, bind. rewrite H1. cbn [fst snd].
  rewrite connect_unfold. simpl. rewrite Hacc, Hok, !lookup_insert_eq. simpl.
  by rewrite !lookup_delete_eq, lookup_insert_eq.
Qed.

Lemma receive_otp_send_failure_recovers_witness :
  eval (receive_otp alice_otp) alice_stale = Return (OtpResponse "pending" "alice") ∧
  active_connections (manager (exec (receive_otp alice_otp) alice_stale)) !! "alice"
  = None ∧
  wire (network (exec (receive_otp alice_otp >> connect 7 "alice") alice_stale))
  = [(7, Otp "123456" "alice@tmp.io" "Acme" "acme.com" 0%Z)].
Proof.
  destruct (receive_otp_send_failure_recovers alice_otp alice_stale 1 7 RuntimeError
              eq_refl eq_refl eq_refl eq_refl) as (Hr & _ & Ha & _ & Hw & _).
  split; [exact Hr|]. split; [exact Ha | exact Hw].
Defined.

(** A handshake that fails costs nothing: when [accept] raises, [connect]
    and with it [websocket_endpoint] raise the same exception and leave the
    server as it was; in particular a pending message stays in the queue. *)
Theorem connect_handshake_failure (ws : WebSocket) (user_id : string)
    (e : Exn) (s : Server) :
  accept_fault (network s) !! ws = Some e →
  connect ws user_id s = (Raise e, s) ∧
  ∀ inbs, websocket_endpoint ws user_id inbs s = (Raise e, s).
Proof.
  intros Hbad.
  assert (Hc : connect ws user_id s = (Raise e, s))
    by (by rewrite connect_unfold, Hbad).
  split; [done|]. intros inbs. unfold websocket_endpoint, bind. by rewrite Hc.
Qed.

Lemma connect_handshake_failure_witness :
  connect 9 "alice" handshake_broken = (Raise RuntimeError, handshake_broken) ∧
  is_Some (pending_otps (manager (exec (connect 9 "alice") handshake_broken)) !! "alice").
Proof.
  destruct (connect_handshake_failure 9 "alice" RuntimeError handshake_broken eq_refl)
    as [Hc _].
  split; [exact Hc|]. unfold exec. rewrite Hc. by eexists.
Defined.

Lemma received_put_on_wire_ne ws ws' data s :
  ws' ≠ ws → received ws' (put_on_wire ws data s) = received ws' s.
Proof.
  intros Hne. unfold received, put_on_wire; simpl.
  rewrite filter_app, fmap_app.
  rewrite filter_cons_False by (simpl; congruence).
  by rewrite filter_nil, app_nil_r.
Qed.

(** A completed [connect] on a socket that takes frames binds the user to
    that socket, in place of any earlier binding of the same user: the
    count of connected users that [GET /] reports grows by one for a new
    user and stays for a user that was registered, no other user's
    binding changes, and no other socket gets a frame. *)
Theorem connect_last_binding_wins (ws : WebSocket) (user_id : string) (s : Server) :
  accept_fault (network s) !! ws = None →
  send_fault (network s) !! ws = None →
  let s' := exec (connect ws user_id) s in
  eval (connect ws user_id) s = Return tt ∧
  active_connections (manager s') = <[user_id := ws]> (active_connections (manager s)) ∧
  root_connected_users (root s')
  = match active_connections (manager s) !! user_id with
    | Some _ => root_connected_users (root s)
    | None => S (root_connected_users (root s))
    end ∧
  (∀ other, other ≠ user_id →
     active_connections (manager s') !! other
     = active_connections (manager s) !! other) ∧
  (∀ ws', ws' ≠ ws → received ws' s' = received ws' s).
Proof.
  intros Hacc Hok. cbn zeta. unfold eval, exec, root.
  rewrite connect_unfold, Hacc, Hok. cbn zeta.
  destruct (pending_otps (manager s) !! user_id) as [data|]; cbn [fst snd].
  - simpl. rewrite map_size_insert.
    split_and!; try done.
    + by destruct (active_connections (manager s) !! user_id).
    + intros other Hne. by rewrite lookup_insert_ne.
    + intros ws' Hne. by rewrite received_put_on_wire_ne.
  - simpl. rewrite map_size_insert.
    split_and!; try done.
    + by destruct (active_connections (manager s) !! user_id).
    + intros other Hne. by rewrite lookup_insert_ne.
Qed.

Lemma connect_last_binding_wins_witness :
  active_connections (manager bob_online) !! "bob" = Some 2 ∧
  active_connections (manager (exec (connect 5 "bob") bob_online)) !! "bob" = Some 5 ∧
  root_connected_users (root (exec (connect 5 "bob") bob_online)) = 1.
Proof.
  destruct (connect_last_binding_wins 5 "bob" bob_online eq_refl eq_refl)
    as (_ & Hact & Hcount & _).
  split; [reflexivity|]. split; [by rewrite Hact | exact Hcount].
Defined.

(** The counter [pending_otps] of [GET /] counts users, not passcodes: a
    passcode for a user that is not connected raises it by one when the
    user had none waiting and leaves it alone when one was waiting; the
    counter of connected users does not move. *)
Theorem root_counts_queued_users (d : OTPData) (s : Server) :
  active_connections (manager s) !! otp_user_id d = None →
  let s' := exec (receive_otp d) s in
  root_pending_otps (root s')
  = match pending_otps (manager s) !! otp_user_id d with
    | Some _ => root_pending_otps (root s)
    | None => S (root_pending_otps (root s))
    end ∧
  root_connected_users (root s') = root_connected_users (root s) ∧
  root_pending_otps (root (exec (receive_otp d >> receive_otp d) s))
  = root_pending_otps (root s').
Proof.
  intros Hoff. cbn zeta. unfold exec, bind, root.
  assert (H1 : receive_otp d s
               = (Return (OtpResponse "pending" (otp_user_id d)),
                  with_manager
                    (set_pending <[otp_user_id d := otp_info d (clock (network s))]>) s))
    by (rewrite receive_otp_unfold; cbn zeta; by rewrite Hoff).
  rewrite H1. cbn [fst snd]. rewrite receive_otp_unfold. simpl. rewrite Hoff. simpl.
  rewrite !map_size_insert, lookup_insert_eq.
  split_and!; try done. by destruct (pending_otps (manager s) !! otp_user_id d).
Qed.

Lemma root_counts_queued_users_witness :
  root_pending_otps (root (exec (receive_otp alice_otp) startup)) = 1 ∧
  root_pending_otps (root (exec (receive_otp alice_otp_again) alice_owed)) = 1 ∧
  root_connected_users (root (exec (receive_otp alice_otp) startup)) = 0.
Proof.
  destruct (root_counts_queued_users alice_otp startup eq_refl) as (H1 & H2 & _).
  destruct (root_counts_queued_users alice_otp_again alice_owed eq_refl) as (H3 & _).
  split; [exact H1|]. split; [exact H3 | exact H2].
Defined.

(** ** Further properties of the consumer loop *)

Section Turn.
Variables (websocket : WebSocket) (user_id : string).

(** A turn never raises: it ends in [Running] with the manager as it was,
    or in [Stopped] with the user unregistered. *)
Lemma endpoint_turn_cases inb s :
  ∃ s', (endpoint_turn websocket user_id inb s = (Return Running, s') ∧
         manager s' = manager s) ∨
        (endpoint_turn websocket user_id inb s = (Return Stopped, s') ∧
         manager s' = disconnect user_id (manager s)).
Proof.
  rewrite endpoint_turn_unfold.
  pose proof (endpoint_iteration_keeps websocket user_id inb s) as Hkeep.
  unfold exec in Hkeep.
  destruct (endpoint_iteration websocket user_id inb s) as [[[]|e] s'];
    simpl in Hkeep; eexists.
  - left. by split.
  - right. split; [done|]. simpl. by rewrite Hkeep.
Qed.

(** A frame that the loop answers, on a socket that takes the answer. *)
Lemma endpoint_iteration_answer delay members reply s :
  (delay < read_timeout)%Z →
  send_fault (network s) !! websocket = None →
  (is_str (dict_get "type" members) "ping" = true ∧ reply = Pong) ∨
  (is_str (dict_get "type" members) "ping" = false ∧
   is_str (dict_get "type" members) "status" = true ∧
   reply = UserStatus true (user_emails (manager s) !! user_id) (clock (network s))) →
  endpoint_iteration websocket user_id
    (Arrives delay (Return (Document (JObject members)))) s
  = (Return tt, put_on_wire websocket reply s).
Proof.
  intros Hin Hok Hty. unfold endpoint_iteration, try_except, bind.
  rewrite wait_for_in_time by done. simpl.
  destruct Hty as [[-> ->]|(-> & -> & ->)].
  - by rewrite send_json_unfold, Hok.
  - unfold time_time, bind, get, ret. by rewrite send_json_unfold, Hok.
Qed.

(** Whatever the turn has to send, a socket that refuses it makes the
    iteration raise, with the state as it was. *)
Lemma endpoint_iteration_refused inb e s :
  send_fault (network s) !! websocket = Some e →
  wait_for_receive_text inb read_timeout s = (Raise TimeoutError, s) ∨
  (∃ delay members,
     inb = Arrives delay (Return (Document (JObject members))) ∧
     (delay < read_timeout)%Z ∧
     (is_str (dict_get "type" members) "ping" = true ∨
      is_str (dict_get "type" members) "status" = true)) →
  ∃ e', endpoint_iteration websocket user_id inb s = (Raise e', s).
Proof.
  intros Hbad [Hlate|(delay & members & -> & Hin & Hty)].
  - rewrite endpoint_iteration_timeout by done.
    rewrite send_json_unfold, Hbad. by eexists.
  - unfold endpoint_iteration, try_except, bind.
    rewrite wait_for_in_time by done. simpl.
    destruct (is_str (dict_get "type" members) "ping") eqn:Hping.
    + rewrite send_json_unfold, Hbad.
      destruct e; rewrite ?send_json_unfold, ?Hbad; by eexists.
    + destruct Hty as [?|Hst]; [done|]. rewrite Hst.
      unfold time_time, bind, get, ret. rewrite send_json_unfold, Hbad.
      destruct e; rewrite ?send_json_unfold, ?Hbad; by eexists.
Qed.
End Turn.

(** The loop answers [ping] with [pong] and [status] with the user's
    status, which always says [connected: True] and carries the address on
    file for the user of the path, if any; the loop goes on and the
    manager is not touched. *)
Theorem endpoint_turn_answers (websocket : WebSocket) (user_id : string)
    (delay : Z) (members : list (string * Json)) (s : Server) :
  (delay < read_timeout)%Z →
  send_fault (network s) !! websocket = None →
  let turn := endpoint_turn websocket user_id
                (Arrives delay (Return (Document (JObject members)))) in
  (is_str (dict_get "type" members) "ping" = true →
     turn s = (Return Running, put_on_wire websocket Pong s)) ∧
  (is_str (dict_get "type" members) "status" = true →
     turn s = (Return Running,
               put_on_wire websocket
                 (UserStatus true (user_emails (manager s) !! user_id)
                             (clock (network s))) s)).
Proof.
  intros Hin Hok. cbn zeta. split; intros Hty; rewrite endpoint_turn_unfold.
  - by rewrite (endpoint_iteration_answer websocket user_id delay members Pong)
      by auto.
  - erewrite endpoint_iteration_answer; [done..|]. right. split_and!; [|done..].
    destruct (dict_get "type" members) as [[]|]; try done. simpl in *.
    apply bool_decide_eq_true_1 in Hty as ->. done.
Qed.

Lemma endpoint_turn_answers_witness :
  received 2 (exec (endpoint_turn 2 "bob" ping_frame) bob_online) = [Pong] ∧
  received 2 (exec (endpoint_turn 2 "bob" status_frame) bob_online)
  = [UserStatus true (Some "b@x.com") 0%Z] ∧
  received 1 (exec (endpoint_turn 1 "alice" status_frame) alice_online)
  = [UserStatus true None 0%Z].
Proof.
  destruct (endpoint_turn_answers 2 "bob" 0 [("type", JString "ping")] bob_online
              eq_refl eq_refl) as [Hping _].
  destruct (endpoint_turn_answers 2 "bob" 0 [("type", JString "status")] bob_online
              eq_refl eq_refl) as [_ Hst].
  destruct (endpoint_turn_answers 1 "alice" 0 [("type", JString "status")] alice_online
              eq_refl eq_refl) as [_ Hst'].
  unfold exec, ping_frame, status_frame.
  rewrite (Hping eq_refl), (Hst eq_refl), (Hst' eq_refl). by vm_compute.
Defined.

(** An address registered with [register_email] is the address that the
    next [status] request on the user's loop reports, whether or not the
    notification itself could be sent. *)
Theorem status_reports_registered_email (d : EmailData) (websocket : WebSocket)
    (delay : Z) (members : list (string * Json)) (s : Server) :
  (delay < read_timeout)%Z →
  send_fault (network s) !! websocket = None →
  is_str (dict_get "type" members) "status" = true →
  let asked := Arrives delay (Return (Document (JObject members))) in
  let s1 := exec (register_email d) s in
  let s2 := exec (register_email d >> endpoint_turn websocket (email_user_id d) asked) s in
  eval (register_email d >> endpoint_turn websocket (email_user_id d) asked) s
  = Return Running ∧
  wire (network s2)
  = wire (network s1)
    ++ [(websocket, UserStatus true (Some (email_email d)) (clock (network s)))] ∧
  rs_email (user_status (email_user_id d) s2) = Some (email_email d).
Proof.
  intros Hin Hok Hty. cbn zeta.
  assert (H1 : ∃ s1, register_email d s
                     = (Return (EmailResponse "registered" (email_email d)), s1) ∧
                     user_emails (manager s1) !! email_user_id d = Some (email_email d) ∧
                     send_fault (network s1) = send_fault (network s) ∧
                     clock (network s1) = clock (network s)).
  { rewrite register_email_unfold. cbn zeta.
    destruct (active_connections (manager s) !! email_user_id d) as [ws|].
    - destruct (send_fault (network s) !! ws); eexists; (split; [done|]).
      + unfold with_manager. cbn [manager network]. rewrite disconnect_delete.
        simpl. by rewrite lookup_insert_eq.
      + simpl. by rewrite lookup_insert_eq.
    - eexists. split; [done|]. simpl. by rewrite lookup_insert_eq. }
  destruct H1 as (s1 & H1 & Hmail & Hsf & Hclk).
  unfold eval, exec, bind, user_status. rewrite H1. cbn [fst snd].
  rewrite endpoint_turn_unfold,
    (endpoint_iteration_answer websocket (email_user_id d) delay members
       (UserStatus true (user_emails (manager s1) !! email_user_id d)
                   (clock (network s1)))).
  - simpl. by rewrite Hmail, Hclk.
  - done.
  - by rewrite Hsf.
  - right. split_and!; [|done..].
    destruct (dict_get "type" members) as [[]|]; try done. simpl in *.
    by apply bool_decide_eq_true_1 in Hty as ->.
Qed.

Lemma status_reports_registered_email_witness :
  wire (network (exec (register_email bob_mail >> endpoint_turn 2 "bob" status_frame)
                      bob_online))
  = [(2, NewEmail "b@x.com" 0%Z); (2, UserStatus true (Some "b@x.com") 0%Z)].
Proof.
  destruct (status_reports_registered_email bob_mail 2 0
              [("type", JString "status")] bob_online eq_refl eq_refl eq_refl)
    as (_ & Hw & _).
  refine (eq_trans Hw _). by vm_compute.
Defined.

(** A socket that refuses frames ends the loop as soon as the loop has
    something to send on it, be it the keep-alive [ping] after a timeout,
    the [pong] or the status: the turn ends in [Stopped], nothing goes
    out, and the user is unregistered. *)
Theorem endpoint_turn_send_refused (websocket : WebSocket) (user_id : string)
    (inb : Inbound) (e : Exn) (s : Server) :
  send_fault (network s) !! websocket = Some e →
  inb = Silence ∨
  (∃ delay what, inb = Arrives delay what ∧ (30 ≤ delay)%Z) ∨
  (∃ delay members,
     inb = Arrives delay (Return (Document (JObject members))) ∧
     (delay < 30)%Z ∧
     (is_str (dict_get "type" members) "ping" = true ∨
      is_str (dict_get "type" members) "status" = true)) →
  endpoint_turn websocket user_id inb s
  = (Return Stopped, with_manager (disconnect user_id) s) ∧
  active_connections (manager (exec (endpoint_turn websocket user_id inb) s))
    !! user_id = None.
Proof.
  intros Hbad Hinb.
  destruct (endpoint_iteration_refused websocket user_id inb e s Hbad) as [e' He'].
  { destruct Hinb as [->|[Hlate|Hans]].
    - left. apply wait_for_late. by left.
    - left. apply wait_for_late. by right.
    - by right. }
  unfold exec. rewrite endpoint_turn_unfold, He'. split; [done|].
  cbn [snd with_manager manager]. rewrite disconnect_delete. apply lookup_delete_eq.
Qed.

Lemma endpoint_turn_send_refused_witness :
  eval (endpoint_turn 1 "alice" Silence) alice_stale = Return Stopped ∧
  eval (endpoint_turn 1 "alice" ping_frame) alice_stale = Return Stopped ∧
  active_connections (manager (exec (endpoint_turn 1 "alice" ping_frame) alice_stale))
    !! "alice" = None ∧
  wire (network (exec (endpoint_turn 1 "alice" ping_frame) alice_stale)) = [].
Proof.
  destruct (endpoint_turn_send_refused 1 "alice" Silence RuntimeError alice_stale
              eq_refl (or_introl eq_refl)) as [H1 _].
  assert (Hping : ∃ delay members,
            ping_frame = Arrives delay (Return (Document (JObject members))) ∧
            (delay < 30)%Z ∧
            (is_str (dict_get "type" members) "ping" = true ∨
             is_str (dict_get "type" members) "status" = true)).
  { exists 0%Z, [("type", JString "ping")]. split; [reflexivity|]. split; [reflexivity|].
    left. reflexivity. }
  destruct (endpoint_turn_send_refused 1 "alice" ping_frame RuntimeError alice_stale
              eq_refl (or_intror (or_intror Hping))) as [H2 H3].
  unfold eval, exec in *. rewrite H1, H2. by vm_compute.
Defined.




Section Session.
Variables (websocket : WebSocket) (user_id : string).

End Session.



(** ** Histories *)

(** What an operation can have done to the manager: every handler is
    made of these steps. *)
Lemma perform_manager_cases op s :
  let m := manager s in
  let m' := manager (perform op s) in
  match op with
  | OpConnect ws c =>
      m' = m ∨ m' = set_active <[c := ws]> m ∨
      m' = set_pending (delete c) (set_active <[c := ws]> m) ∨
      m' = set_active (delete c) (set_pending (delete c) (set_active <[c := ws]> m))
  | OpDisconnect c => m' = set_active (delete c) m
  | OpReceiveOtp d =>
      let put := set_pending <[otp_user_id d := otp_info d (clock (network s))]> in
      m' = m ∨ m' = put m ∨ m' = put (set_active (delete (otp_user_id d)) m)
  | OpRegisterEmail d =>
      let put := set_emails <[email_user_id d := email_email d]> in
      m' = put m ∨ m' = set_active (delete (email_user_id d)) (put m)
  | OpBroadcastStatus =>
      m' = set_active (λ _, survivors s) m
  | OpEndpointTurn _ c _ => m' = m ∨ m' = set_active (delete c) m
  | OpWorld _ _ _ => m' = m
  end.
Proof.
  cbn zeta. destruct op as [ws c|c|d|d| |ws c inb|af sf now]; cbn [perform]; unfold exec.
  - rewrite connect_unfold. cbn zeta. repeat case_match; cbn [snd manager with_manager];
      rewrite ?disconnect_delete; auto.
  - cbn [manager with_manager]. by rewrite disconnect_delete.
  - rewrite receive_otp_unfold. cbn zeta. repeat case_match; cbn [snd manager with_manager];
      rewrite ?disconnect_delete; auto.
  - rewrite register_email_unfold. cbn zeta.
    repeat case_match; cbn [snd manager with_manager put_on_wire];
      rewrite ?disconnect_delete; auto.
  - rewrite broadcast_status_unfold. cbn [snd].
    destruct (foldl_take_status (status_of s)
                (map_to_list (active_connections (manager s))) s)
      as (_ & _ & _ & Hp & He & _ & Hact).
    rewrite drop_failed_all in Hact. fold (survivors s) in Hact.
    destruct (manager (foldl _ _ _)) as [a p e]. simpl in *. subst.
    by destruct (manager s).
  - destruct (endpoint_turn_cases ws c inb s) as [s' [[-> Hm]|[-> Hm]]];
      cbn [snd]; rewrite Hm, ?disconnect_delete; auto.
  - done.
Qed.

(** An address on file is never deleted: only [register_email] writes to
    the email bindings, and it only adds or replaces; so a user that has
    an address has one after every history, and it is the last one
    registered. *)
Theorem emails_never_deleted (history : list Operation) (s : Server)
    (user_id : string) :
  (∀ op s0,
     user_emails (manager (perform op s0))
     = match op with
       | OpRegisterEmail d =>
           <[email_user_id d := email_email d]> (user_emails (manager s0))
       | _ => user_emails (manager s0)
       end) ∧
  (is_Some (user_emails (manager s) !! user_id) →
   is_Some (user_emails (manager (after history s)) !! user_id)) ∧
  (∀ d, email_user_id d = user_id →
        rs_email (user_status user_id (after (history ++ [OpRegisterEmail d]) s))
        = Some (email_email d)).
Proof.
  assert (Hstep : ∀ op s0,
            user_emails (manager (perform op s0))
            = match op with
              | OpRegisterEmail d =>
                  <[email_user_id d := email_email d]> (user_emails (manager s0))
              | _ => user_emails (manager s0)
              end).
  { intros op s0. pose proof (perform_manager_cases op s0) as H. cbn zeta in H.
    destruct op; destruct_or?; rewrite H; done. }
  split_and!; [done| |].
  - revert s. induction history as [|op history IH]; intros s Hs; [done|].
    apply IH. rewrite Hstep. destruct op; try done.
    rewrite lookup_insert. case_decide; [by eexists | done].
  - intros d <-. unfold after. rewrite foldl_app. cbn [foldl user_status rs_email].
    rewrite Hstep. apply lookup_insert_eq.
Qed.

Lemma emails_never_deleted_witness :
  let history := [OpConnect 2 "bob"; OpWorld ∅ {[2 := RuntimeError]} 9%Z;
                  OpBroadcastStatus; OpDisconnect "bob";
                  OpEndpointTurn 2 "bob" (Arrives 0 (Raise WebSocketDisconnect))] in
  is_Some (user_emails (manager (exec (register_email bob_mail) startup)) !! "bob") ∧
  is_Some (user_emails (manager (after history (exec (register_email bob_mail) startup)))
           !! "bob").
Proof.
  cbn zeta.
  assert (H0 : is_Some (user_emails (manager (exec (register_email bob_mail) startup))
                        !! "bob")) by (by eexists).
  split; [exact H0|].
  exact (proj1 (proj2 (emails_never_deleted _ _ "bob")) H0).
Defined.

Lemma otp_only_fresh : otp_only fresh_manager.
Proof. intros c f Hf. simpl in Hf. by rewrite lookup_empty in Hf. Qed.

Lemma otp_only_perform op s :
  otp_only (manager s) → otp_only (manager (perform op s)).
Proof.
  intros Hm. pose proof (perform_manager_cases op s) as H. cbn zeta in H.
  destruct op; destruct_or?; rewrite H; intros c f; simpl;
    rewrite ?lookup_delete_Some, ?lookup_insert_Some;
    intros; destruct_or?; destruct_and?; simplify_eq; eauto.
Qed.

(** The queue only ever holds passcodes: [receive_otp] is the one writer
    and it writes an [otp] frame, so after every history from start-up
    each queued message is one, and notifications of [register_email] in
    particular are never queued. *)
Theorem pending_only_passcodes (history : list Operation) (user_id : string)
    (f : Frame) :
  pending_otps (manager (after history startup)) !! user_id = Some f →
  ∃ otp email sender domain timestamp, f = Otp otp email sender domain timestamp.
Proof.
  assert (Hall : ∀ history s, otp_only (manager s) →
                              otp_only (manager (after history s))).
  { clear. induction history as [|op history IH]; intros s Hs; [done|].
    apply IH. by apply otp_only_perform. }
  intros Hf. apply (Hall history startup otp_only_fresh) in Hf.
  destruct f; try done. by eexists _, _, _, _, _.
Qed.

Lemma pending_only_passcodes_witness :
  let history := [OpRegisterEmail bob_mail; OpReceiveOtp alice_otp;
                  OpConnect 2 "bob"; OpReceiveOtp alice_otp_again] in
  pending_otps (manager (after history startup)) !! "alice"
  = Some (Otp "654321" "alice@tmp.io" "Acme" "acme.com" 0%Z) ∧
  pending_otps (manager (after history startup)) !! "bob" = None ∧
  ∃ otp email sender domain timestamp,
    Otp "654321" "alice@tmp.io" "Acme" "acme.com" 0%Z
    = Otp otp email sender domain timestamp.
Proof.
  cbn zeta. split; [reflexivity|]. split; [reflexivity|].
  exact (pending_only_passcodes
           [OpRegisterEmail bob_mail; OpReceiveOtp alice_otp;
            OpConnect 2 "bob"; OpReceiveOtp alice_otp_again] "alice" _ eq_refl).
Defined.

(** The handlers that are about one user touch that user's entries only:
    after [connect], [disconnect], [receive_otp], [register_email] or a
    turn of the loop for one user, every other user has the binding, the
    queued passcode and the address that it had. *)
Theorem operations_local (op : Operation) (user_id other : string) (s : Server) :
  target op = Some user_id →
  other ≠ user_id →
  active_connections (manager (perform op s)) !! other
  = active_connections (manager s) !! other ∧
  pending_otps (manager (perform op s)) !! other
  = pending_otps (manager s) !! other ∧
  user_emails (manager (perform op s)) !! other
  = user_emails (manager s) !! other.
Proof.
  intros Ht Hne. pose proof (perform_manager_cases op s) as H. cbn zeta in H.
  destruct op; simpl in Ht; simplify_eq; destruct_or?; rewrite H; simpl;
    repeat first [rewrite lookup_insert_ne by done | rewrite lookup_delete_ne by done];
    done.
Qed.

Lemma operations_local_witness :
  user_status "bob" (perform (OpReceiveOtp alice_otp) bob_online)
  = user_status "bob" bob_online ∧
  active_connections (manager (perform (OpDisconnect "alice") bob_online)) !! "bob"
  = Some 2.
Proof.
  assert (Hne : "bob" ≠ "alice") by (intros [=]).
  destruct (operations_local (OpReceiveOtp alice_otp) "alice" "bob" bob_online
              eq_refl Hne) as (Ha & Hp & He).
  destruct (operations_local (OpDisconnect "alice") "alice" "bob" bob_online
              eq_refl Hne) as (Ha' & _).
  split; [|exact Ha'].
  unfold user_status. by rewrite Ha, Hp, He.
Defined.

(** ** Further properties of the broadcast *)

Lemma status_frames_length s : length (status_frames s) = size (survivors s).
Proof.
  unfold status_frames, frames_to, survivors. rewrite length_fmap.
  rewrite map_filter_alt, map_size_list_to_map; [done|].
  eapply sublist_NoDup;
    [apply (NoDup_fst_map_to_list (active_connections (manager s)))|].
  apply fmap_sublist, sublist_filter.
Qed.

Lemma broadcast_status_after s :
  let s1 := exec broadcast_status s in
  eval broadcast_status s = Return tt ∧
  active_connections (manager s1) = survivors s ∧
  send_fault (network s1) = send_fault (network s).
Proof.
  cbn zeta. unfold eval, exec. rewrite broadcast_status_unfold. cbn [fst snd].
  destruct (foldl_take_status (status_of s)
              (map_to_list (active_connections (manager s))) s)
    as (_ & Hs & _ & _ & _ & _ & Hact).
  rewrite drop_failed_all in Hact. by rewrite Hs, Hact.
Qed.

Lemma survivors_survive s : survivors (exec broadcast_status s) = survivors s.
Proof.
  destruct (broadcast_status_after s) as (_ & Hact & Hs).
  unfold survivors at 1. rewrite Hact, Hs. apply map_filter_id.
  intros c ws Hc. unfold survivors in Hc.
  by apply map_lookup_filter_Some in Hc as [_ ?].
Qed.

(** A broadcast sends as many frames as users are registered after it,
    which are no more than were registered before.  Repeated at once, with
    the sockets as they were, it unregisters nobody further and sends the
    same number of frames again. *)
Theorem broadcast_status_settles (s : Server) :
  let once := exec broadcast_status s in
  let twice := exec (broadcast_status >> broadcast_status) s in
  length (status_frames s) = root_connected_users (root once) ∧
  (root_connected_users (root once) ≤ root_connected_users (root s))%nat ∧
  active_connections (manager twice) = active_connections (manager once) ∧
  length (wire (network twice))
  = (length (wire (network once)) + root_connected_users (root once))%nat.
Proof.
  cbn zeta. destruct (broadcast_status_after s) as (Hr & Hact & Hs).
  destruct (broadcast_status_after (exec broadcast_status s)) as (_ & Hact' & _).
  assert (Htwice : exec (broadcast_status >> broadcast_status) s
                   = exec broadcast_status (exec broadcast_status s)).
  { unfold eval, exec, bind in *. by destruct (broadcast_status s) as [[[]|] ?]. }
  rewrite Htwice. unfold root. cbn [root_connected_users].
  rewrite Hact', Hact, survivors_survive, status_frames_length.
  split_and!; try done.
  - apply map_size_filter.
  - unfold exec at 1. rewrite broadcast_status_unfold. cbn [snd].
    destruct (foldl_take_status (status_of (exec broadcast_status s))
                (map_to_list (active_connections (manager (exec broadcast_status s))))
                (exec broadcast_status s))
      as (_ & _ & _ & _ & _ & Hw & _).
    rewrite Hw, length_app. f_equal.
    fold (status_frames (exec broadcast_status s)).
    by rewrite status_frames_length, survivors_survive.
Qed.
